(** * The CdkAwsApiGatewaySecurityStack construct tree

    A shallow embedding of [lib/cdk-aws-api-gateway-security-stack.ts].

    The stack is a constructor that allocates constructs in a tree: every
    [new X(scope, id, props)] of the source adds one node below [scope],
    and [userPool.addResourceServer], [userPool.addDomain] and
    [httpApi.addRoutes] add nodes below the object they are called on.
    The constructor is written here as a program in a state-and-error
    monad over that tree, one statement per statement of the source. *)

From stdpp Require Import base option strings list gmap.

Local Open Scope string_scope.
Local Open Scope list_scope.

(** ** Construct references and the values of the CDK libraries *)

(** A reference to a construct of the tree: its position in creation order. *)
Definition ref := nat.

Module cdk.

Inductive RemovalPolicy := DESTROY | RETAIN | SNAPSHOT.

Record Environment := {
  account : option string;
  region : option string;
}.

Record StackProps := {
  description : option string;
  env : option Environment;
  stackName : option string;
  terminationProtection : option bool;
}.

(** The value of a [CfnOutput]: the source only outputs attributes that
    are resolved when the stack is deployed. *)
Inductive OutputValue :=
| RegionOf (stack : ref)
| UserPoolIdOf (pool : ref)
| UrlOf (api : ref).

Record CfnOutputProps := { value : OutputValue }.

End cdk.

Module cognito.

Record SignInAliases := {
  username : option bool;
  email : option bool;
  phone : option bool;
  preferredUsername : option bool;
}.

(** [{email?, phone?}]; the fields are prefixed here, [email] and [phone]
    being fields of [SignInAliases] already. *)
Record AutoVerifiedAttrs := {
  verify_email : option bool;
  verify_phone : option bool;
}.

Record PasswordPolicy := {
  minLength : option nat;
  requireLowercase : option bool;
  requireDigits : option bool;
  requireUppercase : option bool;
  requireSymbols : option bool;
}.

Inductive AccountRecovery :=
| EMAIL_AND_PHONE_WITHOUT_MFA
| PHONE_WITHOUT_MFA_AND_EMAIL
| EMAIL_ONLY
| PHONE_ONLY_WITHOUT_MFA
| PHONE_AND_EMAIL
| NONE.

Record UserPoolProps := {
  userPoolName : option string;
  removalPolicy : option cdk.RemovalPolicy;
  selfSignUpEnabled : option bool;
  signInAliases : option SignInAliases;
  autoVerify : option AutoVerifiedAttrs;
  passwordPolicy : option PasswordPolicy;
  accountRecovery : option AccountRecovery;
}.

Record ResourceServerScope := {
  scopeName : string;
  scopeDescription : string;
}.

Record UserPoolResourceServerOptions := {
  identifier : string;
  scopes : list ResourceServerScope;
}.

Record CognitoDomainOptions := { domainPrefix : string }.

Record UserPoolDomainOptions := {
  cognitoDomain : option CognitoDomainOptions;
}.

(** The object [userPool.addResourceServer] returns. *)
Record UserPoolResourceServer := {
  resourceServerNode : ref;
  userPoolResourceServerId : string;
}.

Record AuthFlow := {
  adminUserPassword : option bool;
  userPassword : option bool;
  custom : option bool;
  userSrp : option bool;
}.

Record OAuthFlows := {
  authorizationCodeGrant : option bool;
  implicitCodeGrant : option bool;
  clientCredentials : option bool;
}.

Record OAuthScope := { oauthScopeName : string }.

(** [{scopes?, flows?}]; [scopes] is [oauthScopes] here, apart from the
    [scopes] of a resource server. *)
Record OAuthSettings := {
  oauthScopes : option (list OAuthScope);
  flows : option OAuthFlows;
}.

Inductive UserPoolClientIdentityProvider :=
| AMAZON | APPLE | COGNITO | FACEBOOK | GOOGLE.

Record UserPoolClientProps := {
  userPool : ref;
  authFlows : option AuthFlow;
  oAuth : option OAuthSettings;
  generateSecret : option bool;
  supportedIdentityProviders : option (list UserPoolClientIdentityProvider);
}.

(** Modelled from the spec: [OAuthScope.resourceServer] belongs to
    aws-cdk-lib and is not part of the repository.  The glossary gives
    the full scope string as [identifier/scopeName], the identifier
    being the one the resource server was registered under. *)
Definition OAuthScope_resourceServer
    (server : UserPoolResourceServer) (scope : ResourceServerScope) : OAuthScope :=
  {| oauthScopeName := userPoolResourceServerId server +:+ "/" +:+ scopeName scope |}.

End cognito.

Module lambda.

Inductive Runtime := NODEJS_12_X | NODEJS_14_X | NODEJS_16_X.

End lambda.

Module lambdaNodeJs.

Record BundlingOptions := {
  minify : option bool;
  externalModules : option (list string);
}.

(** [path.join(__dirname, rel)]: the directory of the stack's own source
    file is not known to the stack, the relative part is. *)
Inductive EntryPath := DirnameJoin (rel : string).

Record NodejsFunctionProps := {
  runtime : option lambda.Runtime;
  handler : option string;
  entry : option EntryPath;
  bundling : option BundlingOptions;
}.

End lambdaNodeJs.

Module apigwv2.

Inductive HttpMethod := ANY | DELETE | GET | HEAD | OPTIONS | PATCH | POST | PUT.

Global Instance HttpMethod_eq_dec : EqDecision HttpMethod.
Proof. solve_decision. Defined.

(** The enum's string values, used in the id of a route's construct. *)
Definition HttpMethod_value (m : HttpMethod) : string :=
  match m with
  | ANY => "ANY" | DELETE => "DELETE" | GET => "GET" | HEAD => "HEAD"
  | OPTIONS => "OPTIONS" | PATCH => "PATCH" | POST => "POST" | PUT => "PUT"
  end.

Record HttpApiProps := {
  apiName : option string;
  description : option string;
  defaultIntegration : option ref;
}.

(** [new HttpLambdaIntegration(id, handler)]. *)
Record HttpLambdaIntegration := {
  integrationId : string;
  integrationHandler : ref;
}.

Record HttpRouteKey := {
  method : HttpMethod;
  path : string;
}.

(** A reference to an authorizer object.  Authorizers are not constructs:
    they live in a store of their own and are shared by reference. *)
Definition authorizer_ref := nat.

(** The argument of [addRoutes]; its [path] is [routePath] here, apart
    from the [path] of a route key. *)
Record AddRoutesOptions := {
  integration : HttpLambdaIntegration;
  routePath : string;
  methods : option (list HttpMethod);
  authorizer : option authorizer_ref;
  authorizationScopes : option (list string);
}.

(** The props [addRoutes] hands to each [HttpRoute] it creates. *)
Record HttpRouteProps := {
  httpApi : ref;
  routeKey : HttpRouteKey;
  routeIntegration : HttpLambdaIntegration;
  routeAuthorizer : option authorizer_ref;
  routeAuthorizationScopes : option (list string);
}.

End apigwv2.

Module apigwv2Authorizers.

Record UserPoolAuthorizerProps := {
  userPoolClients : option (list ref);
}.

(** [new HttpUserPoolAuthorizer(id, pool, props)]. *)
Record HttpUserPoolAuthorizer := {
  authorizerId : string;
  pool : ref;
  props : UserPoolAuthorizerProps;
}.

End apigwv2Authorizers.

(** ** The construct tree *)

Inductive Node :=
| NStack (props : option cdk.StackProps)
| NUserPool (props : cognito.UserPoolProps)
| NUserPoolResourceServer (pool : ref) (options : cognito.UserPoolResourceServerOptions)
| NUserPoolDomain (pool : ref) (options : cognito.UserPoolDomainOptions)
| NUserPoolClient (props : cognito.UserPoolClientProps)
| NNodejsFunction (props : lambdaNodeJs.NodejsFunctionProps)
| NHttpApi (props : apigwv2.HttpApiProps)
| NHttpRoute (props : apigwv2.HttpRouteProps)
| NCfnOutput (props : cdk.CfnOutputProps).

Record Construct := {
  node_scope : option ref;
  node_id : string;
  node : Node;
}.

(** What the constructor builds: the constructs in creation order (a
    construct's reference is its index) and the authorizer objects. *)
Record World := {
  constructs : list Construct;
  authorizers : list apigwv2Authorizers.HttpUserPoolAuthorizer;
}.

Inductive Error :=
| DuplicateConstructId (scope : option ref) (id : string).

Inductive Result (A : Type) :=
| Ok (a : A)
| Throw (e : Error).
Arguments Ok {A} a.
Arguments Throw {A} e.

(** ** The monad of the constructor: state and exceptions *)

Definition M (A : Type) : Type := World → Result (A * World).

Global Instance M_ret : MRet M := λ A a w, Ok (a, w).

Global Instance M_bind : MBind M := λ A B f m w,
  match m w with
  | Ok (a, w') => f a w'
  | Throw e => Throw e
  end.

Definition throw {A} (e : Error) : M A := λ _, Throw e.

Definition get_constructs : M (list Construct) := λ w, Ok (constructs w, w).

Definition push_construct (c : Construct) : M ref := λ w,
  Ok (length (constructs w),
      {| constructs := constructs w ++ [c]; authorizers := authorizers w |}).

Definition push_authorizer (a : apigwv2Authorizers.HttpUserPoolAuthorizer)
    : M apigwv2.authorizer_ref := λ w,
  Ok (length (authorizers w),
      {| constructs := constructs w; authorizers := authorizers w ++ [a] |}).

(** [c] is the child named [id] of [scope]. *)
Definition is_child (scope : option ref) (id : string) (c : Construct) : bool :=
  bool_decide (node_scope c = scope) && String.eqb (node_id c) id.

(** The base class of every construct: the new node is added to the
    children of [scope], which throws when the name is taken. *)
Definition new_Construct (scope : option ref) (id : string) (n : Node) : M ref :=
  cs ← get_constructs;
  if existsb (is_child scope id) cs
  then throw (DuplicateConstructId scope id)
  else push_construct {| node_scope := scope; node_id := id; node := n |}.

Fixpoint mapM {A B} (f : A → M B) (l : list A) : M (list B) :=
  match l with
  | [] => mret []
  | x :: l' => y ← f x; ys ← mapM f l'; mret (y :: ys)
  end.


(** ** The constructors and methods of the CDK libraries the stack calls

    Each [new X(scope, id, props)] allocates one node below [scope]; the
    [add...] methods allocate below the object they are called on. *)

(** [super(scope, id, props)] of a [Stack]: the root of the stack's own
    tree.  That [id] is free among the children of [scope] is checked by
    [CdkAwsApiGatewaySecurityStack] below, where [scope] is known. *)
Definition Stack_super (id : string) (props : option cdk.StackProps) : M ref :=
  new_Construct None id (NStack props).

Definition UserPool_new (scope : ref) (id : string)
    (props : cognito.UserPoolProps) : M ref :=
  new_Construct (Some scope) id (NUserPool props).

Definition UserPool_addResourceServer (userPool : ref) (id : string)
    (options : cognito.UserPoolResourceServerOptions)
    : M cognito.UserPoolResourceServer :=
  r ← new_Construct (Some userPool) id (NUserPoolResourceServer userPool options);
  mret {| cognito.resourceServerNode := r;
          cognito.userPoolResourceServerId := cognito.identifier options |}.

Definition UserPool_addDomain (userPool : ref) (id : string)
    (options : cognito.UserPoolDomainOptions) : M ref :=
  new_Construct (Some userPool) id (NUserPoolDomain userPool options).

Definition UserPoolClient_new (scope : ref) (id : string)
    (props : cognito.UserPoolClientProps) : M ref :=
  new_Construct (Some scope) id (NUserPoolClient props).

Definition HttpUserPoolAuthorizer_new (id : string) (pool : ref)
    (props : apigwv2Authorizers.UserPoolAuthorizerProps)
    : M apigwv2.authorizer_ref :=
  push_authorizer {| apigwv2Authorizers.authorizerId := id;
                     apigwv2Authorizers.pool := pool;
                     apigwv2Authorizers.props := props |}.

Definition NodejsFunction_new (scope : ref) (id : string)
    (props : lambdaNodeJs.NodejsFunctionProps) : M ref :=
  new_Construct (Some scope) id (NNodejsFunction props).

Definition HttpApi_new (scope : ref) (id : string)
    (props : apigwv2.HttpApiProps) : M ref :=
  new_Construct (Some scope) id (NHttpApi props).

Definition HttpLambdaIntegration_new (id : string) (handler : ref)
    : apigwv2.HttpLambdaIntegration :=
  {| apigwv2.integrationId := id; apigwv2.integrationHandler := handler |}.

(** [httpApi.addRoutes(options)]: one [HttpRoute] per method, [ANY] when no
    method is given; the route's construct is named by method and path. *)
Definition HttpApi_addRoutes (httpApi : ref) (options : apigwv2.AddRoutesOptions)
    : M (list ref) :=
  mapM (λ method,
          new_Construct (Some httpApi)
            (apigwv2.HttpMethod_value method +:+ apigwv2.routePath options)
            (NHttpRoute
               {| apigwv2.httpApi := httpApi;
                  apigwv2.routeKey :=
                    {| apigwv2.method := method;
                       apigwv2.path := apigwv2.routePath options |};
                  apigwv2.routeIntegration := apigwv2.integration options;
                  apigwv2.routeAuthorizer := apigwv2.authorizer options;
                  apigwv2.routeAuthorizationScopes :=
                    apigwv2.authorizationScopes options |}))
       (default [apigwv2.ANY] (apigwv2.methods options)).

Definition CfnOutput_new (scope : ref) (id : string)
    (props : cdk.CfnOutputProps) : M ref :=
  new_Construct (Some scope) id (NCfnOutput props).

(** ** The stack *)

(** The body of [constructor(scope, id, props)], statement by statement. *)
Definition constructor (id : string) (props : option cdk.StackProps) : M unit :=
  this ← Stack_super id props;

  (* create the user pool *)
  userPool ← UserPool_new this "userpool"
    {| cognito.userPoolName := Some "my-user-pool";
       cognito.removalPolicy := Some cdk.DESTROY;
       cognito.selfSignUpEnabled := Some true;
       cognito.signInAliases :=
         Some {| cognito.username := None; cognito.email := Some true;
                 cognito.phone := None; cognito.preferredUsername := None |};
       cognito.autoVerify :=
         Some {| cognito.verify_email := Some true; cognito.verify_phone := None |};
       cognito.passwordPolicy :=
         Some {| cognito.minLength := Some 6;
                 cognito.requireLowercase := Some false;
                 cognito.requireDigits := Some false;
                 cognito.requireUppercase := Some false;
                 cognito.requireSymbols := Some false |};
       cognito.accountRecovery := Some cognito.EMAIL_ONLY |};

  let publicScope :=
    {| cognito.scopeName := "public";
       cognito.scopeDescription := "Read-only access" |} in

  let secureScope :=
    {| cognito.scopeName := "secure";
       cognito.scopeDescription := "Full access" |} in

  resourceServer ← UserPool_addResourceServer userPool "ResourceServer"
    {| cognito.identifier := "resource";
       cognito.scopes := [publicScope; secureScope] |};

  _ ← UserPool_addDomain userPool "CognitoDomain"
    {| cognito.cognitoDomain :=
         Some {| cognito.domainPrefix := "client-credentials-demo" |} |};

  readOnlyClient ← UserPoolClient_new this "read-only-client"
    {| cognito.userPool := userPool;
       cognito.authFlows :=
         Some {| cognito.adminUserPassword := Some true;
                 cognito.userPassword := Some true;
                 cognito.custom := Some true;
                 cognito.userSrp := Some true |};
       cognito.oAuth :=
         Some {| cognito.oauthScopes :=
                   Some [cognito.OAuthScope_resourceServer resourceServer publicScope];
                 cognito.flows :=
                   Some {| cognito.authorizationCodeGrant := None;
                           cognito.implicitCodeGrant := None;
                           cognito.clientCredentials := Some true |} |};
       cognito.generateSecret := Some true;
       cognito.supportedIdentityProviders := Some [cognito.COGNITO] |};

  (* client credential *)
  fullAccessClient ← UserPoolClient_new this "full-access-client"
    {| cognito.userPool := userPool;
       cognito.authFlows :=
         Some {| cognito.adminUserPassword := Some true;
                 cognito.userPassword := Some true;
                 cognito.custom := Some true;
                 cognito.userSrp := Some true |};
       cognito.oAuth :=
         Some {| cognito.oauthScopes :=
                   Some [cognito.OAuthScope_resourceServer resourceServer publicScope;
                         cognito.OAuthScope_resourceServer resourceServer secureScope];
                 cognito.flows :=
                   Some {| cognito.authorizationCodeGrant := None;
                           cognito.implicitCodeGrant := None;
                           cognito.clientCredentials := Some true |} |};
       cognito.generateSecret := Some true;
       cognito.supportedIdentityProviders := Some [cognito.COGNITO] |};

  (* create the Authorizer - for grant access *)
  authorizer ← HttpUserPoolAuthorizer_new "user-pool-authorizer" userPool
    {| apigwv2Authorizers.userPoolClients := Some [readOnlyClient; fullAccessClient] |};

  (* create the lambda that sits behind the authorizer *)
  secureLambda ← NodejsFunction_new this "get-user-info-lambda"
    {| lambdaNodeJs.runtime := Some lambda.NODEJS_14_X;
       lambdaNodeJs.handler := Some "secure";
       lambdaNodeJs.entry := Some (lambdaNodeJs.DirnameJoin "/../src/secure/index.ts");
       lambdaNodeJs.bundling :=
         Some {| lambdaNodeJs.minify := Some true;
                 lambdaNodeJs.externalModules := Some ["aws-sdk"] |} |};

  publicLambda ← NodejsFunction_new this "get-app-info-lambda"
    {| lambdaNodeJs.runtime := Some lambda.NODEJS_14_X;
       lambdaNodeJs.handler := Some "app";
       lambdaNodeJs.entry := Some (lambdaNodeJs.DirnameJoin "/../src/public/index.ts");
       lambdaNodeJs.bundling :=
         Some {| lambdaNodeJs.minify := Some true;
                 lambdaNodeJs.externalModules := Some ["aws-sdk"] |} |};

  (* create the API *)
  httpApi ← HttpApi_new this "apigwv2-demo"
    {| apigwv2.apiName := Some "http-api-demo";
       apigwv2.description := Some "HTTP API example";
       apigwv2.defaultIntegration := None |};

  (* set the Authorizer on the Route *)
  _ ← HttpApi_addRoutes httpApi
    {| apigwv2.integration := HttpLambdaIntegration_new "secure-fn-integration" secureLambda;
       apigwv2.routePath := "/api/secure";
       apigwv2.methods := Some [apigwv2.GET];
       apigwv2.authorizer := Some authorizer;
       apigwv2.authorizationScopes := Some ["resource/secure"] |};

  _ ← HttpApi_addRoutes httpApi
    {| apigwv2.integration := HttpLambdaIntegration_new "public-fn-integration" publicLambda;
       apigwv2.routePath := "/api/public";
       apigwv2.methods := Some [apigwv2.GET];
       apigwv2.authorizer := Some authorizer;
       apigwv2.authorizationScopes := Some ["resource/public"] |};

  _ ← CfnOutput_new this "region" {| cdk.value := cdk.RegionOf this |};
  _ ← CfnOutput_new this "userPoolId" {| cdk.value := cdk.UserPoolIdOf userPool |};
  _ ← CfnOutput_new this "apiUrl" {| cdk.value := cdk.UrlOf httpApi |};
  mret ().

Definition empty_world : World := {| constructs := []; authorizers := [] |}.

(** [new CdkAwsApiGatewaySecurityStack(scope, id, props)].  [scope] is the
    parent construct, seen as the map of its children by id; adding a
    child under a name that is taken throws.  The result is the new
    stack's tree and the parent with the stack among its children. *)
Definition CdkAwsApiGatewaySecurityStack
    (scope : gmap string World) (id : string) (props : option cdk.StackProps)
    : Result (World * gmap string World) :=
  match scope !! id with
  | Some _ => Throw (DuplicateConstructId None id)
  | None =>
      match constructor id props empty_world with
      | Ok (_, w) => Ok (w, <[id := w]> scope)
      | Throw e => Throw e
      end
  end.

(** ** Views of a stack's tree *)

(** The constructs of a kind, each with its reference and its id. *)
Definition nodes_of {A} (sel : Node → option A) (w : World)
    : list (ref * string * A) :=
  omap (λ '(r, c), (λ a, (r, node_id c, a)) <$> sel (node c))
       (imap pair (constructs w)).

Definition userPools : World → list (ref * string * cognito.UserPoolProps) :=
  nodes_of (λ n, match n with NUserPool p => Some p | _ => None end).

Definition resourceServers
    : World → list (ref * string * (ref * cognito.UserPoolResourceServerOptions)) :=
  nodes_of (λ n, match n with
                 | NUserPoolResourceServer pool o => Some (pool, o)
                 | _ => None
                 end).

Definition domains
    : World → list (ref * string * (ref * cognito.UserPoolDomainOptions)) :=
  nodes_of (λ n, match n with
                 | NUserPoolDomain pool o => Some (pool, o)
                 | _ => None
                 end).

Definition userPoolClients
    : World → list (ref * string * cognito.UserPoolClientProps) :=
  nodes_of (λ n, match n with NUserPoolClient p => Some p | _ => None end).

Definition functions
    : World → list (ref * string * lambdaNodeJs.NodejsFunctionProps) :=
  nodes_of (λ n, match n with NNodejsFunction p => Some p | _ => None end).

Definition httpApis : World → list (ref * string * apigwv2.HttpApiProps) :=
  nodes_of (λ n, match n with NHttpApi p => Some p | _ => None end).

Definition routes : World → list (ref * string * apigwv2.HttpRouteProps) :=
  nodes_of (λ n, match n with NHttpRoute p => Some p | _ => None end).

(** The ids of the constructs of a view, in creation order. *)
Definition ids {A} (l : list (ref * string * A)) : list string :=
  (λ x, x.1.2) <$> l.

(** The names of the stack's user pools. *)
Definition userPoolNames (w : World) : list (option string) :=
  (λ x, cognito.userPoolName x.2) <$> userPools w.

(** The prefixes of the stack's Cognito domains. *)
Definition domainPrefixes (w : World) : list string :=
  omap (λ x, cognito.domainPrefix <$> cognito.cognitoDomain x.2.2) (domains w).

(** The removal policies of the stack's user pools. *)
Definition userPoolRemovalPolicies (w : World) : list (option cdk.RemovalPolicy) :=
  (λ x, cognito.removalPolicy x.2) <$> userPools w.

(** The OAuth scopes a client's props grant, when the props list them. *)
Definition grantedScopes (p : cognito.UserPoolClientProps)
    : option (list cognito.OAuthScope) :=
  cognito.oAuth p ≫= cognito.oauthScopes.

(** A set of scopes, by their full names. *)
Definition scopeSet (l : list cognito.OAuthScope) : gset string :=
  list_to_set (cognito.oauthScopeName <$> l).

(** The full name [identifier/scopeName] of a scope of a resource server. *)
Definition fullScopeName (o : cognito.UserPoolResourceServerOptions)
    (s : cognito.ResourceServerScope) : string :=
  cognito.identifier o +:+ "/" +:+ cognito.scopeName s.

(** The scopes a resource server declares, by their full names. *)
Definition declaredScopes (o : cognito.UserPoolResourceServerOptions) : gset string :=
  list_to_set (fullScopeName o <$> cognito.scopes o).

(** The props of a client with the granted scopes replaced. *)
Definition withScopes (l : option (list cognito.OAuthScope))
    (p : cognito.UserPoolClientProps) : cognito.UserPoolClientProps :=
  {| cognito.userPool := cognito.userPool p;
     cognito.authFlows := cognito.authFlows p;
     cognito.oAuth :=
       (λ o, {| cognito.oauthScopes := l; cognito.flows := cognito.flows o |})
         <$> cognito.oAuth p;
     cognito.generateSecret := cognito.generateSecret p;
     cognito.supportedIdentityProviders := cognito.supportedIdentityProviders p |}.

(** ** Requests through the gateway *)

Module gateway.

(** Who issued a token, or to whom: a user pool or client of this stack,
    or one the stack does not know. *)
Inductive Identity :=
| InStack (r : ref)
| Foreign (name : string).

Global Instance Identity_eq_dec : EqDecision Identity.
Proof. solve_decision. Defined.

Record BearerToken := {
  issuedBy : Identity;
  issuedTo : Identity;
  tokenScopes : list string;
}.

Record Request := {
  requestMethod : apigwv2.HttpMethod;
  requestPath : string;
  bearer : option BearerToken;
}.

Inductive Response :=
| NotFound
| Rejected
| Invoked (handler : ref).

(** The clients an authorizer was given. *)
Definition registeredClients (a : apigwv2Authorizers.HttpUserPoolAuthorizer)
    : list ref :=
  default [] (apigwv2Authorizers.userPoolClients (apigwv2Authorizers.props a)).

(** Modelled from the spec: the authorizer's decision is taken by the
    managed gateway, of which the repository holds no code.  The contract
    of the Authorizer: a request is accepted only if its token was issued
    by the Identity Directory to one of the registered clients and the
    token's granted scopes include the route's required scope; a request
    with no token is rejected. *)
Definition accepts (a : apigwv2Authorizers.HttpUserPoolAuthorizer)
    (required : list string) (token : option BearerToken) : bool :=
  match token with
  | None => false
  | Some t =>
      bool_decide (issuedBy t = InStack (apigwv2Authorizers.pool a))
      && existsb (λ c, bool_decide (issuedTo t = InStack c)) (registeredClients a)
      && forallb (λ s, bool_decide (s ∈ tokenScopes t)) required
  end.

(** A route serves the requests for its path and method ([ANY]: all). *)
Definition matches (req : Request) (r : apigwv2.HttpRouteProps) : bool :=
  String.eqb (apigwv2.path (apigwv2.routeKey r)) (requestPath req)
  && (bool_decide (apigwv2.method (apigwv2.routeKey r) = apigwv2.ANY)
      || bool_decide (apigwv2.method (apigwv2.routeKey r) = requestMethod req)).

(** Modelled from the spec: the Front Door is the managed gateway.  It
    receives a request, invokes the Authorizer of the request's route, and
    invokes the route's entry point when the Authorizer accepts. *)
Definition serve (w : World) (req : Request) : Response :=
  match find (matches req) ((λ x, x.2) <$> routes w) with
  | None => NotFound
  | Some r =>
      let handler := apigwv2.integrationHandler (apigwv2.routeIntegration r) in
      match apigwv2.routeAuthorizer r with
      | None => Invoked handler
      | Some a =>
          match authorizers w !! a with
          | None => Rejected
          | Some auth =>
              if accepts auth (default [] (apigwv2.routeAuthorizationScopes r))
                   (bearer req)
              then Invoked handler
              else Rejected
          end
      end
  end.

(** Modelled from the spec: tokens are issued by the managed identity
    service.  Section 6: a consumer presents a client's credentials and
    receives a bearer token scoped to the client's granted scopes; the
    clients are restricted to the client-credentials flow. *)
Definition issue (w : World) (client : ref) : option BearerToken :=
  c ← constructs w !! client;
  match node c with
  | NUserPoolClient p =>
      flows ← cognito.oAuth p ≫= cognito.flows;
      if default false (cognito.clientCredentials flows)
      then Some {| issuedBy := InStack (cognito.userPool p);
                   issuedTo := InStack client;
                   tokenScopes :=
                     cognito.oauthScopeName <$> default [] (grantedScopes p) |}
      else None
  | _ => None
  end.

Definition GET (path : string) (token : option BearerToken) : Request :=
  {| requestMethod := apigwv2.GET; requestPath := path; bearer := token |}.

End gateway.

(** ** What the specification says of a stack *)

(** The user pool as the stack provisions it (section 4.1). *)
Definition user_pool_provisioned (stack : World) : Prop :=
  ∃ pool p,
    userPools stack = [(pool, "userpool", p)] ∧
    cognito.selfSignUpEnabled p = Some true ∧
    cognito.signInAliases p =
      Some {| cognito.username := None; cognito.email := Some true;
              cognito.phone := None; cognito.preferredUsername := None |} ∧
    cognito.autoVerify p =
      Some {| cognito.verify_email := Some true; cognito.verify_phone := None |} ∧
    cognito.passwordPolicy p =
      Some {| cognito.minLength := Some 6;
              cognito.requireLowercase := Some false;
              cognito.requireDigits := Some false;
              cognito.requireUppercase := Some false;
              cognito.requireSymbols := Some false |} ∧
    cognito.accountRecovery p = Some cognito.EMAIL_ONLY.

(** The one resource server of the stack: identifier [resource], scopes
    [public] and [secure], in the stack's user pool. *)
Definition the_resource_server (stack : World)
    (o : cognito.UserPoolResourceServerOptions) : Prop :=
  ∃ rs pool poolProps,
    resourceServers stack = [(rs, "ResourceServer", (pool, o))] ∧
    userPools stack = [(pool, "userpool", poolProps)] ∧
    cognito.identifier o = "resource" ∧
    cognito.scopeName <$> cognito.scopes o = ["public"; "secure"].

(** Every client is granted declared scopes only. *)
Definition clients_granted_declared_scopes (stack : World) : Prop :=
  ∃ o,
    the_resource_server stack o ∧
    declaredScopes o = {["resource/public"; "resource/secure"]} ∧
    ids (userPoolClients stack) = ["read-only-client"; "full-access-client"] ∧
    Forall (λ client, ∃ l, grantedScopes client.2 = Some l ∧
                           scopeSet l ⊆ declaredScopes o)
           (userPoolClients stack).

(** The scopes of the two clients. *)
Definition full_access_strictly_above_read_only (stack : World) : Prop :=
  ∃ readOnlyClient readOnlyProps fullAccessClient fullAccessProps readOnly fullAccess,
    userPoolClients stack =
      [(readOnlyClient, "read-only-client", readOnlyProps);
       (fullAccessClient, "full-access-client", fullAccessProps)] ∧
    grantedScopes readOnlyProps = Some readOnly ∧
    grantedScopes fullAccessProps = Some fullAccess ∧
    scopeSet readOnly = {["resource/public"]} ∧
    scopeSet fullAccess = {["resource/public"; "resource/secure"]} ∧
    scopeSet readOnly ⊂ scopeSet fullAccess.

(** What the two client declarations have in common. *)
Definition client_common_configuration (pool : ref)
    (p : cognito.UserPoolClientProps) : Prop :=
  cognito.userPool p = pool ∧
  cognito.authFlows p =
    Some {| cognito.adminUserPassword := Some true;
            cognito.userPassword := Some true;
            cognito.custom := Some true;
            cognito.userSrp := Some true |} ∧
  cognito.oAuth p ≫= cognito.flows =
    Some {| cognito.authorizationCodeGrant := None;
            cognito.implicitCodeGrant := None;
            cognito.clientCredentials := Some true |} ∧
  cognito.generateSecret p = Some true ∧
  cognito.supportedIdentityProviders p = Some [cognito.COGNITO].

(** The props of either client are those of the other with the granted
    scopes replaced.  (The clients' construct ids differ as well: they are
    arguments of the constructor, not props.) *)
Definition clients_differ_in_scopes_only (stack : World) : Prop :=
  ∃ pool poolProps readOnlyClient readOnlyProps fullAccessClient fullAccessProps,
    userPools stack = [(pool, "userpool", poolProps)] ∧
    userPoolClients stack =
      [(readOnlyClient, "read-only-client", readOnlyProps);
       (fullAccessClient, "full-access-client", fullAccessProps)] ∧
    withScopes (grantedScopes fullAccessProps) readOnlyProps = fullAccessProps ∧
    withScopes (grantedScopes readOnlyProps) fullAccessProps = readOnlyProps ∧
    grantedScopes readOnlyProps ≠ grantedScopes fullAccessProps ∧
    client_common_configuration pool readOnlyProps ∧
    client_common_configuration pool fullAccessProps.

(** The HTTP surface of the stack: one API without a default integration,
    and the routes that were added to it. *)
Definition exactly_two_GET_routes (stack : World) : Prop :=
  ∃ httpApi apiProps secureRoute secure publicRoute public,
    httpApis stack = [(httpApi, "apigwv2-demo", apiProps)] ∧
    apigwv2.defaultIntegration apiProps = None ∧
    routes stack =
      [(secureRoute, "GET/api/secure", secure);
       (publicRoute, "GET/api/public", public)] ∧
    apigwv2.httpApi secure = httpApi ∧
    apigwv2.httpApi public = httpApi ∧
    apigwv2.routeKey secure =
      {| apigwv2.method := apigwv2.GET; apigwv2.path := "/api/secure" |} ∧
    apigwv2.routeKey public =
      {| apigwv2.method := apigwv2.GET; apigwv2.path := "/api/public" |} ∧
    apigwv2.path (apigwv2.routeKey secure) ≠ apigwv2.path (apigwv2.routeKey public).

(** Every route requires a scope the resource server declares. *)
Definition routes_require_declared_scopes (stack : World) : Prop :=
  ∃ o,
    the_resource_server stack o ∧
    Forall (λ route,
              ∃ required s,
                apigwv2.routeAuthorizationScopes route.2 = Some [required] ∧
                s ∈ cognito.scopes o ∧
                required = cognito.identifier o +:+ "/" +:+ cognito.scopeName s)
           (routes stack).

(** What a route is bound to: its path, the scope it requires, its
    authorizer, and the function behind its integration. *)
Definition route_bound_to (stack : World) (route : apigwv2.HttpRouteProps)
    (path required : string) (authorizer : apigwv2.authorizer_ref)
    (functionId handler entry : string) : Prop :=
  apigwv2.path (apigwv2.routeKey route) = path ∧
  apigwv2.routeAuthorizationScopes route = Some [required] ∧
  apigwv2.routeAuthorizer route = Some authorizer ∧
  ∃ p,
    (apigwv2.integrationHandler (apigwv2.routeIntegration route), functionId, p)
      ∈ functions stack ∧
    lambdaNodeJs.handler p = Some handler ∧
    lambdaNodeJs.entry p = Some (lambdaNodeJs.DirnameJoin entry).

(** Both routes go through the stack's only authorizer object, each to
    its own scope and entry point. *)
Definition routes_bound_to_scopes_and_entry_points (stack : World) : Prop :=
  ∃ authorizer authorizerObject secureRoute secure publicRoute public,
    authorizers stack = [authorizerObject] ∧
    authorizers stack !! authorizer = Some authorizerObject ∧
    apigwv2Authorizers.authorizerId authorizerObject = "user-pool-authorizer" ∧
    routes stack =
      [(secureRoute, "GET/api/secure", secure);
       (publicRoute, "GET/api/public", public)] ∧
    route_bound_to stack public "/api/public" "resource/public" authorizer
      "get-app-info-lambda" "app" "/../src/public/index.ts" ∧
    route_bound_to stack secure "/api/secure" "resource/secure" authorizer
      "get-user-info-lambda" "secure" "/../src/secure/index.ts".

(** What the stack's authorizer lets through (section 4.4). *)
Definition authorizer_guards_routes (stack : World) : Prop :=
  ∃ pool poolProps readOnlyClient readOnlyProps fullAccessClient fullAccessProps,
    userPools stack = [(pool, "userpool", poolProps)] ∧
    userPoolClients stack =
      [(readOnlyClient, "read-only-client", readOnlyProps);
       (fullAccessClient, "full-access-client", fullAccessProps)] ∧
    (∀ req handler,
       gateway.serve stack req = gateway.Invoked handler →
       ∃ token required,
         gateway.bearer req = Some token ∧
         gateway.issuedBy token = gateway.InStack pool ∧
         (gateway.issuedTo token = gateway.InStack readOnlyClient ∨
          gateway.issuedTo token = gateway.InStack fullAccessClient) ∧
         ((gateway.requestPath req = "/api/secure" ∧ required = "resource/secure") ∨
          (gateway.requestPath req = "/api/public" ∧ required = "resource/public")) ∧
         required ∈ gateway.tokenScopes token) ∧
    (∀ token,
       gateway.tokenScopes token = ["resource/public"] →
       gateway.serve stack
         {| gateway.requestMethod := apigwv2.GET;
            gateway.requestPath := "/api/secure";
            gateway.bearer := Some token |} = gateway.Rejected) ∧
    (∀ path,
       path ∈ ["/api/secure"; "/api/public"] →
       gateway.serve stack
         {| gateway.requestMethod := apigwv2.GET;
            gateway.requestPath := path;
            gateway.bearer := None |} = gateway.Rejected) ∧
    (∀ path token,
       path ∈ ["/api/secure"; "/api/public"] →
       gateway.issuedTo token ≠ gateway.InStack readOnlyClient →
       gateway.issuedTo token ≠ gateway.InStack fullAccessClient →
       gateway.serve stack
         {| gateway.requestMethod := apigwv2.GET;
            gateway.requestPath := path;
            gateway.bearer := Some token |} = gateway.Rejected).

(** ** The shape of the tree *)

Definition stacks : World → list (ref * string * option cdk.StackProps) :=
  nodes_of (λ n, match n with NStack p => Some p | _ => None end).

Definition outputs : World → list (ref * string * cdk.CfnOutputProps) :=
  nodes_of (λ n, match n with NCfnOutput p => Some p | _ => None end).

Inductive Kind :=
| KStack | KUserPool | KUserPoolResourceServer | KUserPoolDomain
| KUserPoolClient | KNodejsFunction | KHttpApi | KHttpRoute | KCfnOutput.

Definition kind_of (n : Node) : Kind :=
  match n with
  | NStack _ => KStack
  | NUserPool _ => KUserPool
  | NUserPoolResourceServer _ _ => KUserPoolResourceServer
  | NUserPoolDomain _ _ => KUserPoolDomain
  | NUserPoolClient _ => KUserPoolClient
  | NNodejsFunction _ => KNodejsFunction
  | NHttpApi _ => KHttpApi
  | NHttpRoute _ => KHttpRoute
  | NCfnOutput _ => KCfnOutput
  end.

(** The kind of the construct a reference points to, if it points to one. *)
Definition kind_at (w : World) (r : ref) : option Kind :=
  (λ c, kind_of (node c)) <$> constructs w !! r.


(** The name of a construct in the tree: its scope and its id. *)
Definition keys (w : World) : list (option ref * string) :=
  (λ c, (node_scope c, node_id c)) <$> constructs w.

(** A well-formed tree: no two constructs share scope and id, the first
    construct is the only root, and every other construct was created
    below a construct that existed before it. *)
Definition tree_wf (w : World) : Prop :=
  NoDup (keys w) ∧
  Forall (λ ic, match node_scope ic.2 with
                | None => ic.1 = 0
                | Some p => p < ic.1
                end)
         (imap pair (constructs w)).

(** The references a construct holds point to constructs of the kind the
    holder expects: a resource server and a domain to the user pool they
    were added to, a client to its user pool, a route to its API, to the
    function behind its integration and to an authorizer object, an output
    to the construct whose attribute it exports. *)
Definition node_references_resolve (w : World) (c : Construct) : Prop :=
  match node c with
  | NStack _ => node_scope c = None
  | NUserPool _ | NNodejsFunction _ | NHttpApi _ => True
  | NUserPoolResourceServer pool _ | NUserPoolDomain pool _ =>
      node_scope c = Some pool ∧ kind_at w pool = Some KUserPool
  | NUserPoolClient p => kind_at w (cognito.userPool p) = Some KUserPool
  | NHttpRoute p =>
      node_scope c = Some (apigwv2.httpApi p) ∧
      kind_at w (apigwv2.httpApi p) = Some KHttpApi ∧
      kind_at w (apigwv2.integrationHandler (apigwv2.routeIntegration p))
        = Some KNodejsFunction ∧
      from_option (λ a, is_Some (authorizers w !! a)) True (apigwv2.routeAuthorizer p)
  | NCfnOutput p =>
      match cdk.value p with
      | cdk.RegionOf s => kind_at w s = Some KStack
      | cdk.UserPoolIdOf r => kind_at w r = Some KUserPool
      | cdk.UrlOf r => kind_at w r = Some KHttpApi
      end
  end.

(** An authorizer refers to a user pool and to clients of that very pool. *)
Definition authorizer_references_resolve (w : World)
    (a : apigwv2Authorizers.HttpUserPoolAuthorizer) : Prop :=
  kind_at w (apigwv2Authorizers.pool a) = Some KUserPool ∧
  Forall (λ c, ∃ cc p, constructs w !! c = Some cc ∧
                       node cc = NUserPoolClient p ∧
                       cognito.userPool p = apigwv2Authorizers.pool a)
         (gateway.registeredClients a).

Definition references_resolve (w : World) : Prop :=
  Forall (node_references_resolve w) (constructs w) ∧
  Forall (authorizer_references_resolve w) (authorizers w).

(** ** Further statements about a stack *)

(** The three outputs: the region of the stack itself, the id of its user
    pool, the URL of its API. *)
Definition three_outputs (id : string) (stack : World) : Prop :=
  ∃ this stackProps pool poolProps httpApi apiProps o1 o2 o3,
    stacks stack = [(this, id, stackProps)] ∧
    userPools stack = [(pool, "userpool", poolProps)] ∧
    httpApis stack = [(httpApi, "apigwv2-demo", apiProps)] ∧
    outputs stack =
      [(o1, "region", {| cdk.value := cdk.RegionOf this |});
       (o2, "userPoolId", {| cdk.value := cdk.UserPoolIdOf pool |});
       (o3, "apiUrl", {| cdk.value := cdk.UrlOf httpApi |})].

(** How both functions are built. *)
Definition function_build_settings (p : lambdaNodeJs.NodejsFunctionProps) : Prop :=
  lambdaNodeJs.runtime p = Some lambda.NODEJS_14_X ∧
  lambdaNodeJs.bundling p =
    Some {| lambdaNodeJs.minify := Some true;
            lambdaNodeJs.externalModules := Some ["aws-sdk"] |}.

(** The two functions, and the integration of each route with its own. *)
Definition two_functions_one_per_route (stack : World) : Prop :=
  ∃ secureLambda secureProps publicLambda publicProps
    secureRoute secure publicRoute public,
    functions stack =
      [(secureLambda, "get-user-info-lambda", secureProps);
       (publicLambda, "get-app-info-lambda", publicProps)] ∧
    secureLambda ≠ publicLambda ∧
    function_build_settings secureProps ∧
    function_build_settings publicProps ∧
    lambdaNodeJs.handler secureProps = Some "secure" ∧
    lambdaNodeJs.handler publicProps = Some "app" ∧
    lambdaNodeJs.entry secureProps
      = Some (lambdaNodeJs.DirnameJoin "/../src/secure/index.ts") ∧
    lambdaNodeJs.entry publicProps
      = Some (lambdaNodeJs.DirnameJoin "/../src/public/index.ts") ∧
    routes stack =
      [(secureRoute, "GET/api/secure", secure);
       (publicRoute, "GET/api/public", public)] ∧
    apigwv2.routeIntegration secure =
      {| apigwv2.integrationId := "secure-fn-integration";
         apigwv2.integrationHandler := secureLambda |} ∧
    apigwv2.routeIntegration public =
      {| apigwv2.integrationId := "public-fn-integration";
         apigwv2.integrationHandler := publicLambda |}.


(** The authorizer is given the stack's user pool and its two clients, the
    read-only client first. *)
Definition authorizer_registers_both_clients (stack : World) : Prop :=
  ∃ pool poolProps readOnlyClient readOnlyProps fullAccessClient fullAccessProps,
    userPools stack = [(pool, "userpool", poolProps)] ∧
    userPoolClients stack =
      [(readOnlyClient, "read-only-client", readOnlyProps);
       (fullAccessClient, "full-access-client", fullAccessProps)] ∧
    authorizers stack =
      [{| apigwv2Authorizers.authorizerId := "user-pool-authorizer";
          apigwv2Authorizers.pool := pool;
          apigwv2Authorizers.props :=
            {| apigwv2Authorizers.userPoolClients :=
                 Some [readOnlyClient; fullAccessClient] |} |}].

(** The texts that describe the API and the scopes. *)
Definition descriptive_texts (stack : World) : Prop :=
  ∃ httpApi apiProps rs pool o,
    httpApis stack = [(httpApi, "apigwv2-demo", apiProps)] ∧
    apigwv2.apiName apiProps = Some "http-api-demo" ∧
    apigwv2.description apiProps = Some "HTTP API example" ∧
    resourceServers stack = [(rs, "ResourceServer", (pool, o))] ∧
    cognito.scopes o =
      [{| cognito.scopeName := "public";
          cognito.scopeDescription := "Read-only access" |};
       {| cognito.scopeName := "secure";
          cognito.scopeDescription := "Full access" |}].

(** * Properties *)

(** ** The monad and the library calls *)

Lemma bind_Ok {A B} (m : M A) (f : A → M B) w a w' :
  m w = Ok (a, w') → (m ≫= f) w = f a w'.
Proof. intros H. unfold mbind, M_bind. by rewrite H. Qed.

Lemma bind_Throw {A B} (m : M A) (f : A → M B) w e :
  m w = Throw e → (m ≫= f) w = Throw e.
Proof. intros H. unfold mbind, M_bind. by rewrite H. Qed.

(** A construct whose name is free is appended, and gets the next reference. *)
Lemma new_Construct_fresh scope id n w :
  existsb (is_child scope id) (constructs w) = false →
  new_Construct scope id n w =
    Ok (length (constructs w),
        {| constructs :=
             constructs w ++ [{| node_scope := scope; node_id := id; node := n |}];
           authorizers := authorizers w |}).
Proof.
  intros H. unfold new_Construct.
  rewrite (bind_Ok _ _ w (constructs w) w) by done.
  by rewrite H.
Qed.

(** A construct whose name is taken is refused, and nothing changes. *)
Lemma new_Construct_taken scope id n w :
  existsb (is_child scope id) (constructs w) = true →
  new_Construct scope id n w = Throw (DuplicateConstructId scope id).
Proof.
  intros H. unfold new_Construct.
  rewrite (bind_Ok _ _ w (constructs w) w) by done.
  by rewrite H.
Qed.

(** Constructs only ever get added: a successful call keeps every construct
    that was there, at its reference. *)
Lemma new_Construct_extends scope id n w r w' :
  new_Construct scope id n w = Ok (r, w') →
  r = length (constructs w) ∧
  constructs w' = constructs w ++ [{| node_scope := scope; node_id := id; node := n |}] ∧
  authorizers w' = authorizers w.
Proof.
  destruct (existsb (is_child scope id) (constructs w)) eqn:E.
  - by rewrite new_Construct_taken.
  - rewrite new_Construct_fresh by done. intros [= <- <-]. done.
Qed.

(** The authorizer object is allocated once and referred to by its index. *)
Lemma HttpUserPoolAuthorizer_new_lookup id pool props w a w' :
  HttpUserPoolAuthorizer_new id pool props w = Ok (a, w') →
  authorizers w' !! a =
    Some {| apigwv2Authorizers.authorizerId := id;
            apigwv2Authorizers.pool := pool;
            apigwv2Authorizers.props := props |} ∧
  constructs w' = constructs w.
Proof.
  intros [= <- <-]. simpl. split; [|done].
  by rewrite lookup_app_r, Nat.sub_diag.
Qed.

(** ** The scope names *)

Lemma fullScopeName_resourceServer r o s :
  cognito.oauthScopeName
    (cognito.OAuthScope_resourceServer
       {| cognito.resourceServerNode := r;
          cognito.userPoolResourceServerId := cognito.identifier o |} s)
  = fullScopeName o s.
Proof. reflexivity. Qed.

(** A client granted scopes of a resource server, by way of
    [OAuthScope.resourceServer], is granted declared scopes only. *)
Lemma granted_from_server_declared r o (l : list cognito.ResourceServerScope) :
  l ⊆ cognito.scopes o →
  scopeSet
    (cognito.OAuthScope_resourceServer
       {| cognito.resourceServerNode := r;
          cognito.userPoolResourceServerId := cognito.identifier o |} <$> l)
  ⊆ declaredScopes o.
Proof.
  intros Hl x. unfold scopeSet, declaredScopes.
  rewrite !elem_of_list_to_set, <- list_fmap_compose, !list_elem_of_fmap.
  intros (s & -> & Hs). exists s. split; [reflexivity | by apply Hl].
Qed.

(** ** The authorizer *)

Lemma accepts_spec a required token :
  gateway.accepts a required token = true ↔
  ∃ t, token = Some t ∧
       gateway.issuedBy t = gateway.InStack (apigwv2Authorizers.pool a) ∧
       (∃ c, c ∈ gateway.registeredClients a ∧ gateway.issuedTo t = gateway.InStack c) ∧
       (∀ s, s ∈ required → s ∈ gateway.tokenScopes t).
Proof.
  unfold gateway.accepts. destruct token as [t|].
  - rewrite !andb_true_iff, bool_decide_eq_true, existsb_exists, forallb_forall.
    split.
    + intros [[Hi (c & Hc & Ht)] Hs]. exists t. split_and!; [done | done | |].
      * exists c. split; [by apply list_elem_of_In | by apply bool_decide_eq_true in Ht].
      * intros s Hin. apply list_elem_of_In, Hs in Hin.
        by apply bool_decide_eq_true in Hin.
    + intros (t' & [= <-] & Hi & (c & Hc & Ht) & Hs). split_and!; [done | |].
      * exists c. split; [by apply list_elem_of_In | by apply bool_decide_eq_true].
      * intros s Hin. apply bool_decide_eq_true, Hs. by apply list_elem_of_In.
  - split; [done | by intros (t & [=] & _)].
Qed.

Global Arguments gateway.accepts : simpl never.

Lemma accepts_no_token a required : gateway.accepts a required None = false.
Proof. reflexivity. Qed.

(** The gateway invokes an entry point only for a route of the stack that
    matches the request, and, when the route has an authorizer, only after
    the authorizer accepted. *)
Lemma serve_Invoked w req h :
  gateway.serve w req = gateway.Invoked h →
  ∃ r, r ∈ ((λ x, x.2) <$> routes w) ∧
       gateway.matches req r = true ∧
       h = apigwv2.integrationHandler (apigwv2.routeIntegration r) ∧
       ∀ a, apigwv2.routeAuthorizer r = Some a →
            ∃ auth, authorizers w !! a = Some auth ∧
                    gateway.accepts auth
                      (default [] (apigwv2.routeAuthorizationScopes r))
                      (gateway.bearer req) = true.
Proof.
  unfold gateway.serve.
  destruct (find _ _) as [r|] eqn:Hfind; [|done].
  apply find_some in Hfind as [Hin Hm].
  intros H. exists r. split_and!; [by apply list_elem_of_In | done | |].
  - destruct (apigwv2.routeAuthorizer r) as [a|]; [|congruence].
    destruct (authorizers w !! a) as [auth|]; [|done].
    destruct (gateway.accepts _ _ _); congruence.
  - intros a Ha. rewrite Ha in H.
    destruct (authorizers w !! a) as [auth|]; [|done].
    exists auth. split; [done|].
    by destruct (gateway.accepts _ _ _).
Qed.

(** ** Instantiating the stack *)

(** The constructor's body never throws: the ids it uses are distinct
    among siblings, whatever the stack's own id and props. *)
Lemma constructor_total id props :
  ∃ w, constructor id props empty_world = Ok ((), w).
Proof. eexists. vm_compute. reflexivity. Qed.

(** Under a name that is free in [scope] the stack is built, and becomes
    the child of that name. *)
Lemma new_stack scope id props w :
  scope !! id = None →
  constructor id props empty_world = Ok ((), w) →
  CdkAwsApiGatewaySecurityStack scope id props = Ok (w, <[id := w]> scope).
Proof.
  intros Hs Hw. unfold CdkAwsApiGatewaySecurityStack. by rewrite Hs, Hw.
Qed.


Lemma new_stack_inv scope id props w scope' :
  CdkAwsApiGatewaySecurityStack scope id props = Ok (w, scope') →
  scope !! id = None ∧
  constructor id props empty_world = Ok ((), w) ∧
  scope' = <[id := w]> scope.
Proof.
  unfold CdkAwsApiGatewaySecurityStack.
  destruct (scope !! id); [done|].
  destruct (constructor id props empty_world) as [[[] w']|]; [|done].
  by intros [= <- <-].
Qed.

(** Runs the constructor in a goal [∃ stack, new ... = Ok _ ∧ P stack],
    leaving [P] of the tree that was built. *)
Ltac build_stack Hfresh :=
  lazymatch goal with
  | |- ∃ stack, CdkAwsApiGatewaySecurityStack ?scope ?id ?props = _ ∧ _ =>
      let w := fresh "w" in
      let Hw := fresh "Hw" in
      destruct (constructor_total id props) as [w Hw];
      exists w; split; [exact (new_stack scope id props w Hfresh Hw)|];
      vm_compute in Hw; injection Hw as <-
  end.

(** Replaces a view of an explicit tree by its value. *)
Ltac eval_view v :=
  match goal with
  | |- context [v ?w] =>
      let x := eval vm_compute in (v w) in change (v w) with x
  end.

(** ** The identity directory *)

(** C8: the user pool is provisioned with self-service sign-up, email as
    the sign-in alias, automatic verification of the email, a password
    policy of minimum length 6 that requires no lowercase, uppercase, digit
    or symbol, and account recovery by email only. *)
Theorem userPool_configuration scope id props :
  scope !! id = None →
  ∃ stack,
    CdkAwsApiGatewaySecurityStack scope id props = Ok (stack, <[id := stack]> scope) ∧
    user_pool_provisioned stack.
Proof.
  intros Hfresh. build_stack Hfresh.
  unfold user_pool_provisioned. eval_view userPools.
  eexists _, _. split_and!; reflexivity.
Qed.

Lemma userPool_configuration_witness :
  ∃ stack,
    CdkAwsApiGatewaySecurityStack ∅ "CdkAwsApiGatewaySecurityStack" None
      = Ok (stack, <["CdkAwsApiGatewaySecurityStack" := stack]> ∅) ∧
    user_pool_provisioned stack.
Proof.
  apply (userPool_configuration ∅ "CdkAwsApiGatewaySecurityStack" None).
  apply lookup_empty.
Defined.

(** The names every instance of the stack asks for: they are literals of
    the constructor, neither [id] nor [props] reaches them. *)
Lemma global_names scope id props :
  scope !! id = None →
  ∃ stack,
    CdkAwsApiGatewaySecurityStack scope id props = Ok (stack, <[id := stack]> scope) ∧
    userPoolNames stack = [Some "my-user-pool"] ∧
    domainPrefixes stack = ["client-credentials-demo"].
Proof.
  intros Hfresh. build_stack Hfresh.
  eval_view userPoolNames. eval_view domainPrefixes. done.
Qed.

(** C9: any two instantiations of the stack, whatever their construct ids
    and props, name their user pool [my-user-pool] and their OAuth domain
    prefix [client-credentials-demo]: the two instances ask for the same
    global names. *)
Theorem instances_share_global_names scope1 id1 props1 scope2 id2 props2 :
  scope1 !! id1 = None →
  scope2 !! id2 = None →
  ∃ stack1 stack2,
    CdkAwsApiGatewaySecurityStack scope1 id1 props1
      = Ok (stack1, <[id1 := stack1]> scope1) ∧
    CdkAwsApiGatewaySecurityStack scope2 id2 props2
      = Ok (stack2, <[id2 := stack2]> scope2) ∧
    userPoolNames stack1 = [Some "my-user-pool"] ∧
    userPoolNames stack2 = [Some "my-user-pool"] ∧
    domainPrefixes stack1 = ["client-credentials-demo"] ∧
    domainPrefixes stack2 = ["client-credentials-demo"].
Proof.
  intros H1 H2.
  destruct (global_names scope1 id1 props1 H1) as (stack1 & E1 & U1 & D1).
  destruct (global_names scope2 id2 props2 H2) as (stack2 & E2 & U2 & D2).
  by exists stack1, stack2.
Qed.

Lemma instances_share_global_names_witness :
  ∃ stack1 stack2,
    CdkAwsApiGatewaySecurityStack ∅ "Staging" None
      = Ok (stack1, <["Staging" := stack1]> ∅) ∧
    CdkAwsApiGatewaySecurityStack {["Staging" := empty_world]} "Production"
        (Some {| cdk.description := Some "production";
                 cdk.env := Some {| cdk.account := None;
                                    cdk.region := Some "eu-west-1" |};
                 cdk.stackName := Some "prod";
                 cdk.terminationProtection := Some true |})
      = Ok (stack2, <["Production" := stack2]> {["Staging" := empty_world]}) ∧
    userPoolNames stack1 = [Some "my-user-pool"] ∧
    userPoolNames stack2 = [Some "my-user-pool"] ∧
    domainPrefixes stack1 = ["client-credentials-demo"] ∧
    domainPrefixes stack2 = ["client-credentials-demo"].
Proof.
  apply (instances_share_global_names ∅ "Staging" None
           {["Staging" := empty_world]} "Production").
  - apply lookup_empty.
  - apply lookup_singleton_ne. discriminate.
Defined.

(** Two stacks in one app: the second is built next to the first, and asks
    for the names the first one holds. *)
Lemma parallel_deployments_collide app id1 props1 id2 props2 :
  app !! id1 = None → app !! id2 = None → id1 ≠ id2 →
  ∃ stack1 stack2,
    CdkAwsApiGatewaySecurityStack app id1 props1
      = Ok (stack1, <[id1 := stack1]> app) ∧
    CdkAwsApiGatewaySecurityStack (<[id1 := stack1]> app) id2 props2
      = Ok (stack2, <[id2 := stack2]> (<[id1 := stack1]> app)) ∧
    userPoolNames stack1 = userPoolNames stack2 ∧
    domainPrefixes stack1 = domainPrefixes stack2.
Proof.
  intros H1 H2 Hne.
  destruct (global_names app id1 props1 H1) as (stack1 & E1 & U1 & D1).
  assert (H2' : <[id1 := stack1]> app !! id2 = None)
    by by rewrite lookup_insert_ne.
  destruct (global_names _ id2 props2 H2') as (stack2 & E2 & U2 & D2).
  exists stack1, stack2. split_and!; [done | done | congruence | congruence].
Qed.

(** C10: in every instantiation of the stack the user pool carries the
    removal policy [DESTROY] (not [RETAIN]): removing the stack removes
    the user pool with it. *)
Theorem userPool_removalPolicy_DESTROY scope id props :
  scope !! id = None →
  ∃ stack,
    CdkAwsApiGatewaySecurityStack scope id props = Ok (stack, <[id := stack]> scope) ∧
    userPoolRemovalPolicies stack = [Some cdk.DESTROY].
Proof.
  intros Hfresh. build_stack Hfresh.
  eval_view userPoolRemovalPolicies. done.
Qed.

Lemma userPool_removalPolicy_DESTROY_witness :
  ∃ stack,
    CdkAwsApiGatewaySecurityStack ∅ "CdkAwsApiGatewaySecurityStack" None
      = Ok (stack, <["CdkAwsApiGatewaySecurityStack" := stack]> ∅) ∧
    userPoolRemovalPolicies stack = [Some cdk.DESTROY].
Proof.
  apply (userPool_removalPolicy_DESTROY ∅ "CdkAwsApiGatewaySecurityStack" None).
  apply lookup_empty.
Defined.

(** ** The resource server and the clients *)

(** C3: for each of the two OAuth clients of the stack, the granted scopes
    are a subset of the scopes the resource server declares, which are
    exactly [public] and [secure] under the identifier [resource]. *)
Theorem clients_scopes_subset_of_declared scope id props :
  scope !! id = None →
  ∃ stack,
    CdkAwsApiGatewaySecurityStack scope id props = Ok (stack, <[id := stack]> scope) ∧
    clients_granted_declared_scopes stack.
Proof.
  intros Hfresh. build_stack Hfresh.
  unfold clients_granted_declared_scopes, the_resource_server.
  eval_view resourceServers. eval_view userPools. eval_view userPoolClients.
  eexists. split_and!.
  - eexists _, _, _. split_and!; reflexivity.
  - unfold declaredScopes. cbn. set_solver.
  - reflexivity.
  - apply List.Forall_cons; [|apply List.Forall_cons; [|apply List.Forall_nil]];
      (eexists; split; [reflexivity|]);
      unfold scopeSet, declaredScopes; cbn; set_unfold; tauto.
Qed.

Lemma clients_scopes_subset_of_declared_witness :
  ∃ stack,
    CdkAwsApiGatewaySecurityStack ∅ "CdkAwsApiGatewaySecurityStack" None
      = Ok (stack, <["CdkAwsApiGatewaySecurityStack" := stack]> ∅) ∧
    clients_granted_declared_scopes stack.
Proof.
  apply (clients_scopes_subset_of_declared ∅ "CdkAwsApiGatewaySecurityStack" None).
  apply lookup_empty.
Defined.

(** C4: the read-only client is granted the public scope only, the
    full-access client the public and the secure scope; the second set
    strictly contains the first. *)
Theorem fullAccess_scopes_strict_superset scope id props :
  scope !! id = None →
  ∃ stack,
    CdkAwsApiGatewaySecurityStack scope id props = Ok (stack, <[id := stack]> scope) ∧
    full_access_strictly_above_read_only stack.
Proof.
  intros Hfresh. build_stack Hfresh.
  unfold full_access_strictly_above_read_only. eval_view userPoolClients.
  eexists _, _, _, _, _, _.
  split_and!; [reflexivity | reflexivity | reflexivity | ..];
    unfold scopeSet; cbn.
  - set_unfold. tauto.
  - set_unfold. tauto.
  - split.
    + set_unfold. tauto.
    + intros Hsub. specialize (Hsub "resource/secure"). set_unfold.
      destruct Hsub as [|[]]; [tauto | discriminate].
Qed.

Lemma fullAccess_scopes_strict_superset_witness :
  ∃ stack,
    CdkAwsApiGatewaySecurityStack ∅ "CdkAwsApiGatewaySecurityStack" None
      = Ok (stack, <["CdkAwsApiGatewaySecurityStack" := stack]> ∅) ∧
    full_access_strictly_above_read_only stack.
Proof.
  apply (fullAccess_scopes_strict_superset ∅ "CdkAwsApiGatewaySecurityStack" None).
  apply lookup_empty.
Defined.

(** Replacing the scopes touches nothing else, and is undone by putting
    the old scopes back when the props have OAuth settings. *)
Lemma withScopes_grantedScopes l p :
  is_Some (cognito.oAuth p) → grantedScopes (withScopes l p) = l.
Proof. intros [o Ho]. unfold grantedScopes, withScopes. simpl. by rewrite Ho. Qed.

Lemma withScopes_same p :
  withScopes (grantedScopes p) p = p.
Proof.
  destruct p as [u a [[s f]|] g i]; reflexivity.
Qed.

Lemma withScopes_common pool l p :
  client_common_configuration pool p →
  client_common_configuration pool (withScopes l p).
Proof.
  unfold client_common_configuration.
  destruct p as [u a [[s f]|] g i]; simpl; tauto.
Qed.

(** C7: the two client declarations are identical in every attribute
    except the granted scopes: both enable the same four authentication
    flows, both allow the client-credentials OAuth flow only, both generate
    a secret, both list Cognito as the only identity provider. *)
Theorem clients_identical_except_scopes scope id props :
  scope !! id = None →
  ∃ stack,
    CdkAwsApiGatewaySecurityStack scope id props = Ok (stack, <[id := stack]> scope) ∧
    clients_differ_in_scopes_only stack.
Proof.
  intros Hfresh. build_stack Hfresh.
  unfold clients_differ_in_scopes_only.
  eval_view userPools. eval_view userPoolClients.
  eexists _, _, _, _, _, _.
  split_and!; [reflexivity | reflexivity | reflexivity | reflexivity
              | discriminate | ..];
    unfold client_common_configuration; split_and!; reflexivity.
Qed.

Lemma clients_identical_except_scopes_witness :
  ∃ stack,
    CdkAwsApiGatewaySecurityStack ∅ "CdkAwsApiGatewaySecurityStack" None
      = Ok (stack, <["CdkAwsApiGatewaySecurityStack" := stack]> ∅) ∧
    clients_differ_in_scopes_only stack.
Proof.
  apply (clients_identical_except_scopes ∅ "CdkAwsApiGatewaySecurityStack" None).
  apply lookup_empty.
Defined.

(** ** The routes *)

Lemma mapM_length {A B} (f : A → M B) l w rs w' :
  mapM f l w = Ok (rs, w') → length rs = length l.
Proof.
  revert w rs w'. induction l as [|x l IH]; intros w rs w'; simpl.
  - by intros [= <- _].
  - unfold mbind, M_bind.
    destruct (f x w) as [[y w1]|]; [|done].
    destruct (mapM f l w1) as [[ys w2]|] eqn:E; [|done].
    intros [= <- _]. simpl. f_equal. by eapply IH.
Qed.

(** [addRoutes] creates one route per method it is given. *)
Lemma HttpApi_addRoutes_length httpApi options w rs w' :
  HttpApi_addRoutes httpApi options w = Ok (rs, w') →
  length rs = length (default [apigwv2.ANY] (apigwv2.methods options)).
Proof. apply mapM_length. Qed.

(** C5: the stack's HTTP API has exactly two routes and nothing else (no
    default integration); both routes are for the method GET, and their
    paths, [/api/secure] and [/api/public], differ. *)
Theorem httpApi_exactly_two_GET_routes scope id props :
  scope !! id = None →
  ∃ stack,
    CdkAwsApiGatewaySecurityStack scope id props = Ok (stack, <[id := stack]> scope) ∧
    exactly_two_GET_routes stack.
Proof.
  intros Hfresh. build_stack Hfresh.
  unfold exactly_two_GET_routes. eval_view httpApis. eval_view routes.
  eexists _, _, _, _, _, _.
  split_and!; [reflexivity.. | discriminate].
Qed.

Lemma httpApi_exactly_two_GET_routes_witness :
  ∃ stack,
    CdkAwsApiGatewaySecurityStack ∅ "CdkAwsApiGatewaySecurityStack" None
      = Ok (stack, <["CdkAwsApiGatewaySecurityStack" := stack]> ∅) ∧
    exactly_two_GET_routes stack.
Proof.
  apply (httpApi_exactly_two_GET_routes ∅ "CdkAwsApiGatewaySecurityStack" None).
  apply lookup_empty.
Defined.

(** C6: the scope each route requires is [identifier/scopeName] for the
    identifier [resource] of the resource server and one of the scopes,
    [public] or [secure], it declares: no route refers to a scope that does
    not exist. *)
Theorem routes_scopes_declared scope id props :
  scope !! id = None →
  ∃ stack,
    CdkAwsApiGatewaySecurityStack scope id props = Ok (stack, <[id := stack]> scope) ∧
    routes_require_declared_scopes stack.
Proof.
  intros Hfresh. build_stack Hfresh.
  unfold routes_require_declared_scopes, the_resource_server.
  eval_view resourceServers. eval_view userPools. eval_view routes.
  eexists. split.
  - eexists _, _, _. split_and!; reflexivity.
  - apply List.Forall_cons; [|apply List.Forall_cons; [|apply List.Forall_nil]];
      simpl.
    + eexists _, {| cognito.scopeName := "secure" |}.
      split_and!; [reflexivity | | reflexivity].
      apply list_elem_of_further, list_elem_of_here.
    + eexists _, {| cognito.scopeName := "public" |}.
      split_and!; [reflexivity | | reflexivity].
      apply list_elem_of_here.
Qed.

Lemma routes_scopes_declared_witness :
  ∃ stack,
    CdkAwsApiGatewaySecurityStack ∅ "CdkAwsApiGatewaySecurityStack" None
      = Ok (stack, <["CdkAwsApiGatewaySecurityStack" := stack]> ∅) ∧
    routes_require_declared_scopes stack.
Proof.
  apply (routes_scopes_declared ∅ "CdkAwsApiGatewaySecurityStack" None).
  apply lookup_empty.
Defined.

(** C2: the route [/api/public] requires the scope [resource/public] and
    invokes the public entry point, the route [/api/secure] requires
    [resource/secure] and invokes the secure entry point; both routes are
    guarded by one and the same authorizer object, the only one there is. *)
Theorem routes_bound_to_scope_and_handler scope id props :
  scope !! id = None →
  ∃ stack,
    CdkAwsApiGatewaySecurityStack scope id props = Ok (stack, <[id := stack]> scope) ∧
    routes_bound_to_scopes_and_entry_points stack.
Proof.
  intros Hfresh. build_stack Hfresh.
  unfold routes_bound_to_scopes_and_entry_points, route_bound_to.
  eval_view authorizers. eval_view routes. eval_view functions.
  eexists 0, _, _, _, _, _.
  split_and!; try reflexivity; eexists; simpl.
  - split; [apply list_elem_of_further, list_elem_of_here | by split].
  - split; [apply list_elem_of_here | by split].
Qed.

Lemma routes_bound_to_scope_and_handler_witness :
  ∃ stack,
    CdkAwsApiGatewaySecurityStack ∅ "CdkAwsApiGatewaySecurityStack" None
      = Ok (stack, <["CdkAwsApiGatewaySecurityStack" := stack]> ∅) ∧
    routes_bound_to_scopes_and_entry_points stack.
Proof.
  apply (routes_bound_to_scope_and_handler ∅ "CdkAwsApiGatewaySecurityStack" None).
  apply lookup_empty.
Defined.

(** ** Requests *)

Lemma not_accepted_Rejected a required token handler :
  gateway.accepts a required token ≠ true →
  (if gateway.accepts a required token
   then gateway.Invoked handler else gateway.Rejected) = gateway.Rejected.
Proof. by destruct (gateway.accepts a required token). Qed.

(** Records the value of a view of the tree [w] that [HW] describes. *)
Ltac know v w HW :=
  let H := fresh "H" v in
  lazymatch type of HW with
  | ?W = w =>
      let x := eval vm_compute in (v W) in
      assert (H : v w = x) by (rewrite <- HW; vm_compute; reflexivity)
  end.

(** The path of a request that a route matches is the route's path. *)
Lemma matches_path req r :
  gateway.matches req r = true →
  gateway.requestPath req = apigwv2.path (apigwv2.routeKey r).
Proof.
  unfold gateway.matches. rewrite andb_true_iff, String.eqb_eq. by intros [-> _].
Qed.

(** C1: the gateway invokes an entry point of the stack only for a request
    whose bearer token was issued by the stack's user pool to the read-only
    or to the full-access client and whose scopes include the scope the
    request's route requires.  In particular a token that carries the
    public scope only is rejected at [/api/secure], and a request with no
    token, or with a token of a client that is not registered, is rejected
    at both routes. *)
Theorem authorizer_accepts_only_registered_and_scoped scope id props :
  scope !! id = None →
  ∃ stack,
    CdkAwsApiGatewaySecurityStack scope id props = Ok (stack, <[id := stack]> scope) ∧
    authorizer_guards_routes stack.
Proof.
  intros Hfresh.
  destruct (constructor_total id props) as [w Hw].
  exists w. split; [exact (new_stack scope id props w Hfresh Hw)|].
  vm_compute in Hw. injection Hw as Hw.
  know userPools w Hw. know userPoolClients w Hw.
  know routes w Hw. know authorizers w Hw. clear Hw.
  unfold authorizer_guards_routes. rewrite HuserPools, HuserPoolClients.
  eexists _, _, _, _, _, _.
  split; [reflexivity|]. split; [reflexivity|].
  split_and!.
  - intros req handler H. apply serve_Invoked in H as (r & Hr & Hm & _ & Ha).
    apply matches_path in Hm.
    rewrite Hroutes in Hr. simpl in Hr.
    assert (Hcases : ∃ required,
               apigwv2.routeAuthorizer r = Some 0 ∧
               apigwv2.routeAuthorizationScopes r = Some [required] ∧
               ((gateway.requestPath req = "/api/secure" ∧ required = "resource/secure") ∨
                (gateway.requestPath req = "/api/public" ∧ required = "resource/public"))).
    { apply elem_of_cons in Hr as [->|Hr];
        [|apply elem_of_cons in Hr as [->|Hr]; [|by apply elem_of_nil in Hr]];
        eexists; (split; [reflexivity|]); (split; [reflexivity|]); rewrite Hm;
        [left | right]; done. }
    destruct Hcases as (required & Hauth & Hscopes & Hpath).
    destruct (Ha 0 Hauth) as (auth & Hlookup & Hacc).
    rewrite Hauthorizers in Hlookup. injection Hlookup as <-.
    rewrite Hscopes in Hacc.
    apply accepts_spec in Hacc as (token & Htoken & Hby & (c & Hc & Hto) & Hs).
    exists token, required. split_and!; [done | done | | done | ].
    + unfold gateway.registeredClients in Hc. simpl in Hc.
      apply elem_of_cons in Hc as [->|Hc]; [by left|].
      apply elem_of_cons in Hc as [->|Hc]; [by right|].
      by apply elem_of_nil in Hc.
    + apply Hs, list_elem_of_here.
  - intros token Hscopes. unfold gateway.serve. rewrite Hroutes. simpl.
    rewrite Hauthorizers. simpl.
    apply not_accepted_Rejected. rewrite accepts_spec.
    intros (t & [= <-] & _ & _ & Hs).
    specialize (Hs "resource/secure" (list_elem_of_here _ _)).
    rewrite Hscopes in Hs.
    apply elem_of_cons in Hs as [Hs|Hs]; [discriminate | by apply elem_of_nil in Hs].
  - intros path Hpath. unfold gateway.serve. rewrite Hroutes.
    apply elem_of_cons in Hpath as [->|Hpath];
      [|apply elem_of_cons in Hpath as [->|Hpath]; [|by apply elem_of_nil in Hpath]];
      simpl; rewrite Hauthorizers; reflexivity.
  - intros path token Hpath Hro Hfa. unfold gateway.serve. rewrite Hroutes.
    apply elem_of_cons in Hpath as [->|Hpath];
      [|apply elem_of_cons in Hpath as [->|Hpath]; [|by apply elem_of_nil in Hpath]];
      simpl; rewrite Hauthorizers; simpl;
      apply not_accepted_Rejected; rewrite accepts_spec;
      intros (t & [= <-] & _ & (c & Hc & Hto) & _);
      unfold gateway.registeredClients in Hc; simpl in Hc;
      (apply elem_of_cons in Hc as [->|Hc]; [done|]);
      (apply elem_of_cons in Hc as [->|Hc]; [done|]);
      by apply elem_of_nil in Hc.
Qed.

Lemma authorizer_accepts_only_registered_and_scoped_witness :
  ∃ stack,
    CdkAwsApiGatewaySecurityStack ∅ "CdkAwsApiGatewaySecurityStack" None
      = Ok (stack, <["CdkAwsApiGatewaySecurityStack" := stack]> ∅) ∧
    authorizer_guards_routes stack.
Proof.
  apply (authorizer_accepts_only_registered_and_scoped
           ∅ "CdkAwsApiGatewaySecurityStack" None).
  apply lookup_empty.
Defined.

(** The scenarios of section 8, with tokens as the identity service issues
    them: the read-only client's token opens [/api/public] only, the
    full-access client's token opens both routes, each route invoking its
    own entry point. *)
Lemma token_scenarios id props :
  ∃ stack readOnlyClient fullAccessClient secureLambda publicLambda,
    constructor id props empty_world = Ok ((), stack) ∧
    ids (userPoolClients stack) = ["read-only-client"; "full-access-client"] ∧
    (userPoolClients stack).*1.*1 = [readOnlyClient; fullAccessClient] ∧
    ids (functions stack) = ["get-user-info-lambda"; "get-app-info-lambda"] ∧
    (functions stack).*1.*1 = [secureLambda; publicLambda] ∧
    gateway.serve stack (gateway.GET "/api/secure" (gateway.issue stack readOnlyClient))
      = gateway.Rejected ∧
    gateway.serve stack (gateway.GET "/api/public" (gateway.issue stack readOnlyClient))
      = gateway.Invoked publicLambda ∧
    gateway.serve stack (gateway.GET "/api/secure" (gateway.issue stack fullAccessClient))
      = gateway.Invoked secureLambda ∧
    gateway.serve stack (gateway.GET "/api/public" (gateway.issue stack fullAccessClient))
      = gateway.Invoked publicLambda.
Proof.
  destruct (constructor_total id props) as [w Hw].
  pose proof Hw as HW. vm_compute in HW. injection HW as <-.
  eexists _, 4, 5, 6, 7. split; [exact Hw|]. clear Hw.
  split_and!; vm_compute; reflexivity.
Qed.

Lemma find_all_false {A} (f : A → bool) (l : list A) :
  Forall (λ x, f x = false) l → find f l = None.
Proof.
  induction 1 as [|x l Hx _ IH]; simpl; [done|]. by rewrite Hx.
Qed.

(** A request that no route matches finds nothing. *)
Lemma serve_NotFound w req :
  Forall (λ r, gateway.matches req r.2 = false) (routes w) →
  gateway.serve w req = gateway.NotFound.
Proof.
  intros H. unfold gateway.serve. rewrite find_all_false; [done|].
  by apply Forall_fmap.
Qed.

(** The gateway knows the two routes only: any other path or method finds
    no route. *)
Lemma other_requests_not_found id props :
  ∃ stack,
    constructor id props empty_world = Ok ((), stack) ∧
    ∀ req,
      (gateway.requestPath req ≠ "/api/secure" ∧
       gateway.requestPath req ≠ "/api/public") ∨
      gateway.requestMethod req ≠ apigwv2.GET →
      gateway.serve stack req = gateway.NotFound.
Proof.
  destruct (constructor_total id props) as [w Hw].
  exists w. split; [done|].
  vm_compute in Hw. injection Hw as Hw. know routes w Hw. clear Hw.
  intros req Hreq. apply serve_NotFound. rewrite Hroutes.
  apply List.Forall_cons; [|apply List.Forall_cons; [|apply List.Forall_nil]];
    unfold gateway.matches; cbn [apigwv2.path apigwv2.routeKey apigwv2.method snd];
    (destruct Hreq as [[Hs Hp]|Hm];
     [ apply andb_false_intro1, String.eqb_neq; congruence
     | apply andb_false_intro2, orb_false_intro;
       [reflexivity | apply bool_decide_eq_false_2; congruence] ]).
Qed.

(** The paths of the two routes have to differ: a second route for a path
    and method the API already has is refused. *)
Lemma duplicate_route_throws id props :
  ∃ stack httpApi secureLambda,
    constructor id props empty_world = Ok ((), stack) ∧
    ids (httpApis stack) = ["apigwv2-demo"] ∧
    (httpApis stack).*1.*1 = [httpApi] ∧
    HttpApi_addRoutes httpApi
      {| apigwv2.integration :=
           HttpLambdaIntegration_new "secure-fn-integration" secureLambda;
         apigwv2.routePath := "/api/secure";
         apigwv2.methods := Some [apigwv2.GET];
         apigwv2.authorizer := None;
         apigwv2.authorizationScopes := None |} stack
    = Throw (DuplicateConstructId (Some httpApi) "GET/api/secure").
Proof.
  destruct (constructor_total id props) as [w Hw].
  pose proof Hw as HW. vm_compute in HW. injection HW as <-.
  eexists _, 8, 6. split; [exact Hw|]. clear Hw.
  split_and!; vm_compute; reflexivity.
Qed.

(** ** The rest of the constructor *)

(** X1: every instance exports three outputs, [region], [userPoolId] and
    [apiUrl]: the region of the stack itself, the id of its user pool and
    the URL of its HTTP API. *)
Theorem stack_outputs scope id props :
  scope !! id = None →
  ∃ stack,
    CdkAwsApiGatewaySecurityStack scope id props = Ok (stack, <[id := stack]> scope) ∧
    three_outputs id stack.
Proof.
  intros Hfresh. build_stack Hfresh.
  unfold three_outputs.
  eval_view stacks. eval_view userPools. eval_view httpApis. eval_view outputs.
  eexists _, _, _, _, _, _, _, _, _. split_and!; reflexivity.
Qed.

Lemma stack_outputs_witness :
  ∃ stack,
    CdkAwsApiGatewaySecurityStack ∅ "Demo" None = Ok (stack, <["Demo" := stack]> ∅) ∧
    three_outputs "Demo" stack.
Proof.
  apply (stack_outputs ∅ "Demo" None). apply lookup_empty.
Defined.

(** X2: the stack has two functions, both for the Node.js 14 runtime and
    bundled minified without [aws-sdk]; the route [/api/secure] is
    integrated with the one whose handler is [secure], the route
    [/api/public] with the other, whose handler is [app]. *)
Theorem functions_behind_routes scope id props :
  scope !! id = None →
  ∃ stack,
    CdkAwsApiGatewaySecurityStack scope id props = Ok (stack, <[id := stack]> scope) ∧
    two_functions_one_per_route stack.
Proof.
  intros Hfresh. build_stack Hfresh.
  unfold two_functions_one_per_route, function_build_settings.
  eval_view functions. eval_view routes.
  eexists _, _, _, _, _, _, _, _.
  split_and!; first [reflexivity | discriminate].
Qed.

Lemma functions_behind_routes_witness :
  ∃ stack,
    CdkAwsApiGatewaySecurityStack ∅ "Demo" None = Ok (stack, <["Demo" := stack]> ∅) ∧
    two_functions_one_per_route stack.
Proof.
  apply (functions_behind_routes ∅ "Demo" None). apply lookup_empty.
Defined.



(** X4: the one authorizer object of the stack validates against the
    stack's user pool and lists exactly the read-only and the full-access
    client, in this order. *)
Theorem authorizer_pool_and_clients scope id props :
  scope !! id = None →
  ∃ stack,
    CdkAwsApiGatewaySecurityStack scope id props = Ok (stack, <[id := stack]> scope) ∧
    authorizer_registers_both_clients stack.
Proof.
  intros Hfresh. build_stack Hfresh.
  unfold authorizer_registers_both_clients.
  eval_view userPools. eval_view userPoolClients.
  eexists _, _, _, _, _, _. split_and!; reflexivity.
Qed.

Lemma authorizer_pool_and_clients_witness :
  ∃ stack,
    CdkAwsApiGatewaySecurityStack ∅ "Demo" None = Ok (stack, <["Demo" := stack]> ∅) ∧
    authorizer_registers_both_clients stack.
Proof.
  apply (authorizer_pool_and_clients ∅ "Demo" None). apply lookup_empty.
Defined.

(** X5: the API is named [http-api-demo] and described as "HTTP API
    example"; the scopes [public] and [secure] are described as "Read-only
    access" and "Full access". *)
Theorem api_and_scope_descriptions scope id props :
  scope !! id = None →
  ∃ stack,
    CdkAwsApiGatewaySecurityStack scope id props = Ok (stack, <[id := stack]> scope) ∧
    descriptive_texts stack.
Proof.
  intros Hfresh. build_stack Hfresh.
  unfold descriptive_texts.
  eval_view httpApis. eval_view resourceServers.
  eexists _, _, _, _, _. split_and!; reflexivity.
Qed.

Lemma api_and_scope_descriptions_witness :
  ∃ stack,
    CdkAwsApiGatewaySecurityStack ∅ "Demo" None = Ok (stack, <["Demo" := stack]> ∅) ∧
    descriptive_texts stack.
Proof.
  apply (api_and_scope_descriptions ∅ "Demo" None). apply lookup_empty.
Defined.

(** ** Invariants of the tree *)

(** The name check of [new_Construct] is a membership test on [keys]. *)
Lemma is_child_key scope id (cs : list Construct) :
  existsb (is_child scope id) cs = true ↔
  (scope, id) ∈ (λ c, (node_scope c, node_id c)) <$> cs.
Proof.
  rewrite existsb_exists, list_elem_of_fmap. unfold is_child.
  split.
  - intros (c & Hin & Hc). apply andb_true_iff in Hc as [Hs Hi].
    apply bool_decide_eq_true in Hs. apply String.eqb_eq in Hi.
    exists c. split; [by rewrite Hs, Hi | by apply list_elem_of_In].
  - intros (c & [= -> ->] & Hin). exists c. split; [by apply list_elem_of_In|].
    apply andb_true_iff. split; [by apply bool_decide_eq_true | apply String.eqb_refl].
Qed.

(** Creating a construct keeps the tree well formed: a root in an empty
    tree, or a child of a construct that exists. *)
Lemma new_Construct_wf scope id n w r w' :
  tree_wf w →
  match scope with
  | None => constructs w = []
  | Some p => p < length (constructs w)
  end →
  new_Construct scope id n w = Ok (r, w') →
  tree_wf w'.
Proof.
  intros [Hnd Hsc] Hscope Hnew.
  destruct (existsb (is_child scope id) (constructs w)) eqn:E;
    [by rewrite new_Construct_taken in Hnew|].
  apply new_Construct_extends in Hnew as (-> & Hcs & _).
  unfold tree_wf, keys. rewrite Hcs. split.
  - rewrite fmap_app. apply NoDup_app. split_and!; [done | | apply NoDup_singleton].
    intros k Hk Hk'. apply list_elem_of_singleton in Hk' as ->.
    apply is_child_key in Hk. cbn in Hk. congruence.
  - rewrite imap_app. apply Forall_app. split; [done|].
    apply Forall_singleton. simpl. rewrite Nat.add_0_r.
    destruct scope as [p|]; [done | by rewrite Hscope].
Qed.

(** A name that is taken stays taken, and the tree is as it was: the
    failed call has no effect to undo. *)
Lemma new_Construct_twice scope id n n' w r w' :
  new_Construct scope id n w = Ok (r, w') →
  new_Construct scope id n' w' = Throw (DuplicateConstructId scope id).
Proof.
  intros Hnew. apply new_Construct_extends in Hnew as (_ & Hcs & _).
  apply new_Construct_taken, is_child_key.
  rewrite Hcs, fmap_app. apply elem_of_app. right. apply list_elem_of_here.
Qed.



(** X7: no reference of the stack dangles or points to the wrong kind of
    construct: the resource server and the domain belong to the user pool,
    the clients are clients of it, the routes belong to the API and are
    integrated with functions and guarded by an authorizer object that
    exists, the authorizer's clients are clients of the authorizer's own
    pool, and each output exports an attribute of a construct of the right
    kind. *)
Theorem stack_references_resolve scope id props :
  scope !! id = None →
  ∃ stack,
    CdkAwsApiGatewaySecurityStack scope id props = Ok (stack, <[id := stack]> scope) ∧
    references_resolve stack.
Proof.
  intros Hfresh. build_stack Hfresh.
  unfold references_resolve. split.
  - cbn [constructs].
    repeat (apply List.Forall_cons;
            [unfold node_references_resolve; cbn; by eauto|]).
    apply List.Forall_nil.
  - cbn [authorizers]. apply List.Forall_cons; [|apply List.Forall_nil].
    unfold authorizer_references_resolve. split; [reflexivity|].
    unfold gateway.registeredClients. cbn.
    repeat (apply List.Forall_cons; [by eexists _, _|]). apply List.Forall_nil.
Qed.

Lemma stack_references_resolve_witness :
  ∃ stack,
    CdkAwsApiGatewaySecurityStack ∅ "Demo" None = Ok (stack, <["Demo" := stack]> ∅) ∧
    references_resolve stack.
Proof.
  apply (stack_references_resolve ∅ "Demo" None). apply lookup_empty.
Defined.

(** ** Instances side by side *)




